(** * gephi_mcp: the bridge between an MCP caller and the Gephi HTTP API

    A shallow embedding of [src/mcp-server/gephi_mcp.py]: the transport
    client [GephiClient.request], the formatter [fmt] and the tool
    functions registered with [@mcp.tool].

    Python values are an inductive type, Python exceptions an explicit
    result type, and the network (httpx and the controlled application
    behind it) a component of the world the tools run in: every call the
    bridge issues is appended to the world's log, and the world decides
    what comes back (a response, or an exception raised by httpx). *)

From Stdlib Require Import ZArith List String Ascii Bool Lia DecimalString DecimalZ DecimalPos.
Import ListNotations.
Set Warnings "-register-all".
Open Scope string_scope.

(** ** Python values *)

Module Py.

(** A [float] is carried by what [float.__repr__] prints for it; the three
    non-finite floats are kept apart because [json] tests for them. *)
Inductive pyfloat : Type :=
| FNaN
| FInf
| FNegInf
| FFinite (repr : string).

(** The values the bridge handles: what [json.loads] produces (and so what
    [response.json()] and the caller's parameter object hold), and [VOther]
    for an object of a class [json] has no encoding for (a [set], [bytes], an
    instance of a class of one's own), known by its class name and by what
    [str()] gives for it; a [tuple] is encoded as the list of its items and is
    a [VList] here, and an instance of a subclass of a JSON type is a value of
    that type.  A [str] is a
    [string] whose characters are the code points U+0000..U+00FF; a [dict]
    keeps its items in insertion order, keys are [str] as in
    [Dict[str, Any]]. *)
Inductive value : Type :=
| VNone
| VBool (b : bool)
| VInt (z : Z)
| VFloat (f : pyfloat)
| VStr (s : string)
| VList (items : list value)
| VDict (items : list (string * value))
| VOther (cls : string) (str_ : string).

Definition dict : Type := list (string * value).

(** [d.get(key)]: the value of the first (only) item under [key]. *)
Fixpoint dict_lookup (d : dict) (key : string) : option value :=
  match d with
  | [] => None
  | (k, v) :: rest => if String.eqb k key then Some v else dict_lookup rest key
  end.

(** [d.get(key, default)] *)
Definition dict_get (d : dict) (key : string) (default : value) : value :=
  match dict_lookup d key with
  | Some v => v
  | None => default
  end.

(** [d or {}] for a [dict] [d]: an empty dict is falsy. *)
Definition dict_or_empty (d : dict) : dict :=
  match d with
  | [] => []
  | _ :: _ => d
  end.

(** [int.__repr__] *)
Definition int_repr (z : Z) : string := NilZero.string_of_int (Z.to_int z).

(** [s.rstrip(c)] for a single character [c]. *)
Fixpoint rstrip (c : ascii) (s : string) : string :=
  match s with
  | EmptyString => EmptyString
  | String a rest =>
      match rstrip c rest with
      | EmptyString => if Ascii.eqb a c then EmptyString else String a EmptyString
      | kept => String a kept
      end
  end.

Section Str.

(** [repr] of the containers ([list], [dict]) belongs to the interpreter; the
    bridge only ever interpolates what it is given. *)
Variable container_repr : value -> string.

(** [str(v)], which is also what an f-string field [{v}] expands to. *)
Definition str (v : value) : string :=
  match v with
  | VNone => "None"
  | VBool true => "True"
  | VBool false => "False"
  | VInt z => int_repr z
  | VFloat FNaN => "nan"
  | VFloat FInf => "inf"
  | VFloat FNegInf => "-inf"
  | VFloat (FFinite r) => r
  | VStr s => s
  | VList _ => container_repr v
  | VDict _ => container_repr v
  | VOther _ s => s
  end.

End Str.

End Py.
Import Py.

(** ** httpx: responses and exceptions *)

Module Httpx.

(** What [Response.json()] does on a received response: the decoded value, or
    the exception the decoder raises (class and [str(e)]). *)
Inductive json_outcome : Type :=
| Decoded (v : value)
| DecodeError (cls : string) (msg : string).

Record Response : Type := mkResponse {
  status_code : Z;
  text : string;
  json_body : json_outcome
}.

(** [Response.is_success] of httpx, the test [raise_for_status] makes: a 2xx
    status. *)
Definition is_success (r : Response) : bool :=
  ((200 <=? status_code r) && (status_code r <=? 299))%Z.

(** The request the client hands to
    [AsyncClient(timeout=...).request(method=, url=, params=, json=)]. *)
Record HttpCall : Type := mkCall {
  call_timeout : pyfloat;
  call_method : string;
  call_url : string;
  call_params : option dict;
  call_json : option dict
}.

End Httpx.
Import Httpx.

(** ** Exceptions and results *)

(** The exception classes the [except] clauses of [request] tell apart.
    [TimeoutException] stands for the class and its subclasses
    ([ConnectTimeout], [ReadTimeout], ...); [PyException] is any other
    subclass of [Exception], with its class name and [str(e)]. *)
Inductive exn : Type :=
| ConnectError (msg : string)
| TimeoutException (msg : string)
| HTTPStatusError (response : Response)
| PyException (cls : string) (msg : string).

Inductive pyresult (A : Type) : Type :=
| Return (a : A)
| Raise (e : exn).
Arguments Return {A} a.
Arguments Raise {A} e.

Definition pbind {A B : Type} (r : pyresult A) (k : A -> pyresult B) : pyresult B :=
  match r with
  | Return a => k a
  | Raise e => Raise e
  end.

(** ** json.dumps(obj, indent=2) *)

Module Json.

Definition dq : string := String (ascii_of_nat 34) EmptyString.
Definition nl : string := String (ascii_of_nat 10) EmptyString.
Definition backslash : string := String (ascii_of_nat 92) EmptyString.

Definition hex_digit (n : nat) : string :=
  String (match n with
          | 0 => "0" | 1 => "1" | 2 => "2" | 3 => "3" | 4 => "4" | 5 => "5"
          | 6 => "6" | 7 => "7" | 8 => "8" | 9 => "9" | 10 => "a" | 11 => "b"
          | 12 => "c" | 13 => "d" | 14 => "e" | _ => "f"
          end%char) EmptyString.

(** ['\\u{0:04x}'.format(n)] for a code point below 256, the code points a
    [str] of this development holds. *)
Definition u_escape (n : nat) : string :=
  backslash ++ "u00" ++ hex_digit (n / 16) ++ hex_digit (n mod 16).

(** One character of [py_encode_basestring_ascii]: [ESCAPE_ASCII] matches a
    backslash, a double quote and everything outside [' '..'~']; [ESCAPE_DCT]
    has the short forms. *)
Definition escape_char (c : ascii) : string :=
  let n := nat_of_ascii c in
  if Nat.eqb n 34 then backslash ++ dq
  else if Nat.eqb n 92 then backslash ++ backslash
  else if Nat.eqb n 10 then backslash ++ "n"
  else if Nat.eqb n 13 then backslash ++ "r"
  else if Nat.eqb n 9 then backslash ++ "t"
  else if Nat.eqb n 8 then backslash ++ "b"
  else if Nat.eqb n 12 then backslash ++ "f"
  else if (Nat.ltb n 32 || Nat.ltb 126 n)%bool then u_escape n
  else String c EmptyString.

Fixpoint escape_chars (s : string) : string :=
  match s with
  | EmptyString => EmptyString
  | String c rest => escape_char c ++ escape_chars rest
  end.

Definition encode_basestring_ascii (s : string) : string :=
  dq ++ escape_chars s ++ dq.

(** [floatstr] with [allow_nan=True]. *)
Definition floatstr (f : pyfloat) : string :=
  match f with
  | FNaN => "NaN"
  | FInf => "Infinity"
  | FNegInf => "-Infinity"
  | FFinite r => r
  end.

(** [_indent * _current_indent_level] with [_indent = '  ']. *)
Fixpoint indentation (level : nat) : string :=
  match level with
  | O => EmptyString
  | S l => "  " ++ indentation l
  end.

(** The start of a chunk inside a container: the first item follows the
    opening bracket and [newline_indent], the others [separator]. *)
Definition lead (first : bool) (level : nat) : string :=
  if first then nl ++ indentation level else "," ++ nl ++ indentation level.

(** [_iterencode]: the chunks of the encoder, concatenated.  No [default=]
    hook is given, so an object of any other type raises [TypeError]. *)
Fixpoint iterencode (level : nat) (o : value) {struct o} : pyresult string :=
  match o with
  | VNone => Return "null"
  | VBool true => Return "true"
  | VBool false => Return "false"
  | VInt z => Return (int_repr z)
  | VFloat f => Return (floatstr f)
  | VStr s => Return (encode_basestring_ascii s)
  | VList [] => Return "[]"
  | VList lst =>
      let fix chunks (first : bool) (l : list value) {struct l} : pyresult string :=
        match l with
        | [] => Return EmptyString
        | x :: rest =>
            pbind (iterencode (S level) x) (fun sx =>
            pbind (chunks false rest) (fun srest =>
            Return (lead first (S level) ++ sx ++ srest)))
        end in
      pbind (chunks true lst) (fun body =>
      Return ("[" ++ body ++ nl ++ indentation level ++ "]"))
  | VDict [] => Return "{}"
  | VDict dct =>
      let fix chunks (first : bool) (l : list (string * value)) {struct l}
        : pyresult string :=
        match l with
        | [] => Return EmptyString
        | (k, x) :: rest =>
            pbind (iterencode (S level) x) (fun sx =>
            pbind (chunks false rest) (fun srest =>
            Return (lead first (S level) ++ encode_basestring_ascii k ++ ": "
                    ++ sx ++ srest)))
        end in
      pbind (chunks true dct) (fun body =>
      Return ("{" ++ body ++ nl ++ indentation level ++ "}"))
  | VOther cls _ =>
      Raise (PyException "TypeError"
               ("Object of type " ++ cls ++ " is not JSON serializable"))
  end.

Definition dumps_indent2 (obj : value) : pyresult string := iterencode 0 obj.

End Json.

Import Json.

(** [json.dumps] raises on no value built from the JSON types alone. *)
Fixpoint renderable (o : value) : bool :=
  match o with
  | VList lst => forallb renderable lst
  | VDict dct => forallb (fun kv => renderable (snd kv)) dct
  | VOther _ _ => false
  | _ => true
  end.

(** ** The world the bridge runs in *)

(** The controlled application and the network in front of it: [respond]
    gives what httpx does with a call, knowing the calls made before it; [sent]
    is the log of the calls handed to httpx so far. *)
Record World : Type := mkWorld {
  respond : list HttpCall -> HttpCall -> pyresult Response;
  sent : list HttpCall
}.

(** Coroutines of the bridge: they may raise, and they act on the world. *)
Definition IO (A : Type) : Type := World -> pyresult A * World.

Definition ret {A : Type} (a : A) : IO A := fun w => (Return a, w).

Definition raise {A : Type} (e : exn) : IO A := fun w => (Raise e, w).

Definition lift {A : Type} (r : pyresult A) : IO A := fun w => (r, w).

Definition bind {A B : Type} (m : IO A) (k : A -> IO B) : IO B :=
  fun w =>
    match m w with
    | (Return a, w') => k a w'
    | (Raise e, w') => (Raise e, w')
    end.

(** [try: body  except ...: handler]: the handler dispatches on the class of
    the exception. *)
Definition try_except {A : Type} (body : IO A) (handler : exn -> IO A) : IO A :=
  fun w =>
    match body w with
    | (Return a, w') => (Return a, w')
    | (Raise e, w') => handler e w'
    end.

Declare Scope io_scope.
Delimit Scope io_scope with io.
Notation "x <- m ;; k" := (bind m (fun x => k))
  (at level 61, m at next level, right associativity) : io_scope.
Open Scope io_scope.

(** [await client.request(method=, url=, params=, json=)] on a client built
    with [timeout=]: one call, logged, answered by the world. *)
Definition AsyncClient_request (timeout : pyfloat) (method url : string)
    (params json : option dict) : IO Response :=
  fun w =>
    let c := mkCall timeout method url params json in
    (respond w (sent w) c, mkWorld (respond w) (sent w ++ [c])).

(** [response.raise_for_status()] *)
Definition raise_for_status (response : Response) : IO unit :=
  if is_success response then ret tt else raise (HTTPStatusError response).

(** [response.json()] *)
Definition Response_json (response : Response) : IO value :=
  match json_body response with
  | Decoded v => ret v
  | DecodeError cls msg => raise (PyException cls msg)
  end.

(** ** The HTTP client *)

Definition GEPHI_API_URL : string := "http://127.0.0.1:8080".
Definition REQUEST_TIMEOUT : pyfloat := FFinite "60.0".

(** The mapping [{"success": False, "error": msg}] of the [except] clauses. *)
Definition failure (msg : string) : value :=
  VDict [("success", VBool false); ("error", VStr msg)].

Module GephiClient.

Record t : Type := mk {
  base_url : string;
  timeout : pyfloat
}.

Definition __init__ (base_url : string) : t :=
  {| base_url := rstrip "/" base_url; timeout := REQUEST_TIMEOUT |}.

Definition request (self : t) (method endpoint : string)
    (params json_data : option dict) : IO value :=
  let url := base_url self ++ endpoint in
  try_except
    (response <- AsyncClient_request (timeout self) method url params json_data ;;
     _ <- raise_for_status response ;;
     Response_json response)
    (fun e =>
       match e with
       | ConnectError _ =>
           ret (failure ("Cannot connect to Gephi at " ++ base_url self
                         ++ ". Ensure Gephi is running with the MCP plugin installed."))
       | TimeoutException _ =>
           ret (failure "Request timed out. The operation may still be running in Gephi.")
       | HTTPStatusError response =>
           try_except
             (Response_json response)
             (fun _ =>
                ret (failure ("HTTP " ++ int_repr (status_code response) ++ ": "
                              ++ text response)))
       | PyException _ msg =>
           ret (failure ("Request failed: " ++ msg))
       end).

End GephiClient.

Definition gephi : GephiClient.t := GephiClient.__init__ GEPHI_API_URL.

(** ** Response formatting *)

Definition fmt (data : value) : pyresult string := dumps_indent2 data.

(** ** The MCP tools *)

Section Tools.

Variable container_repr : value -> string.

Definition gephi_health_check : IO string :=
  data <- GephiClient.request gephi "GET" "/health" None None ;;
  lift (fmt data).

Definition gephi_create_project (params : dict) : IO string :=
  data <- GephiClient.request gephi "POST" "/project/new"
            None (Some (dict_or_empty params)) ;;
  lift (fmt data).

Definition gephi_open_project (params : dict) : IO string :=
  data <- GephiClient.request gephi "POST" "/project/open" None (Some params) ;;
  lift (fmt data).

Definition gephi_save_project (params : dict) : IO string :=
  data <- GephiClient.request gephi "POST" "/project/save" None (Some params) ;;
  lift (fmt data).

Definition gephi_get_project_info (params : dict) : IO string :=
  data <- GephiClient.request gephi "GET" "/project/info" None None ;;
  lift (fmt data).

Definition gephi_new_workspace (params : dict) : IO string :=
  data <- GephiClient.request gephi "POST" "/workspace/new" None None ;;
  lift (fmt data).

Definition gephi_list_workspaces (params : dict) : IO string :=
  data <- GephiClient.request gephi "GET" "/workspace/list" None None ;;
  lift (fmt data).

Definition gephi_switch_workspace (params : dict) : IO string :=
  data <- GephiClient.request gephi "POST" "/workspace/switch" None (Some params) ;;
  lift (fmt data).

Definition gephi_delete_workspace (params : dict) : IO string :=
  data <- GephiClient.request gephi "DELETE" "/workspace/delete"
            (Some [("index", VStr (str container_repr (dict_get params "index" (VInt 0))))])
            None ;;
  lift (fmt data).

Definition gephi_add_node (params : dict) : IO string :=
  data <- GephiClient.request gephi "POST" "/graph/node/add" None (Some params) ;;
  lift (fmt data).

Definition gephi_add_nodes (params : dict) : IO string :=
  data <- GephiClient.request gephi "POST" "/graph/nodes/add" None (Some params) ;;
  lift (fmt data).

Definition gephi_remove_node (params : dict) : IO string :=
  let node_id := dict_get params "id" (VStr EmptyString) in
  data <- GephiClient.request gephi "DELETE"
            ("/graph/node/" ++ str container_repr node_id) None None ;;
  lift (fmt data).

Definition gephi_bulk_remove_nodes (params : dict) : IO string :=
  data <- GephiClient.request gephi "POST" "/graph/nodes/remove" None (Some params) ;;
  lift (fmt data).

Definition gephi_query_nodes (params : dict) : IO string :=
  let query_params := [("limit", dict_get params "limit" (VInt 100));
                       ("offset", dict_get params "offset" (VInt 0))] in
  data <- GephiClient.request gephi "GET" "/graph/nodes" (Some query_params) None ;;
  lift (fmt data).

Definition gephi_set_node_label (params : dict) : IO string :=
  data <- GephiClient.request gephi "POST" "/graph/node/label" None (Some params) ;;
  lift (fmt data).

Definition gephi_set_node_position (params : dict) : IO string :=
  data <- GephiClient.request gephi "POST" "/graph/node/position" None (Some params) ;;
  lift (fmt data).

Definition gephi_batch_set_positions (params : dict) : IO string :=
  data <- GephiClient.request gephi "POST" "/graph/nodes/positions" None (Some params) ;;
  lift (fmt data).

Definition gephi_add_edge (params : dict) : IO string :=
  data <- GephiClient.request gephi "POST" "/graph/edge/add" None (Some params) ;;
  lift (fmt data).

Definition gephi_add_edges (params : dict) : IO string :=
  data <- GephiClient.request gephi "POST" "/graph/edges/add" None (Some params) ;;
  lift (fmt data).

Definition gephi_remove_edge (params : dict) : IO string :=
  data <- GephiClient.request gephi "POST" "/graph/edge/remove" None (Some params) ;;
  lift (fmt data).

Definition gephi_set_edge_weight (params : dict) : IO string :=
  data <- GephiClient.request gephi "POST" "/graph/edge/weight" None (Some params) ;;
  lift (fmt data).

Definition gephi_set_edge_label (params : dict) : IO string :=
  data <- GephiClient.request gephi "POST" "/graph/edge/label" None (Some params) ;;
  lift (fmt data).

Definition gephi_query_edges (params : dict) : IO string :=
  let query_params := [("limit", dict_get params "limit" (VInt 100));
                       ("offset", dict_get params "offset" (VInt 0))] in
  data <- GephiClient.request gephi "GET" "/graph/edges" (Some query_params) None ;;
  lift (fmt data).

Definition gephi_get_graph_stats (params : dict) : IO string :=
  data <- GephiClient.request gephi "GET" "/graph/stats" None None ;;
  lift (fmt data).

Definition gephi_get_graph_type (params : dict) : IO string :=
  data <- GephiClient.request gephi "GET" "/graph/type" None None ;;
  lift (fmt data).

Definition gephi_get_columns (params : dict) : IO string :=
  data <- GephiClient.request gephi "GET" "/graph/columns"
            (Some [("target", dict_get params "target" (VStr "node"))]) None ;;
  lift (fmt data).

Definition gephi_add_column (params : dict) : IO string :=
  data <- GephiClient.request gephi "POST" "/graph/columns/add" None (Some params) ;;
  lift (fmt data).

Definition gephi_set_node_attributes (params : dict) : IO string :=
  data <- GephiClient.request gephi "POST" "/graph/node/attributes" None (Some params) ;;
  lift (fmt data).

Definition gephi_batch_set_node_attributes (params : dict) : IO string :=
  data <- GephiClient.request gephi "POST" "/graph/nodes/attributes" None (Some params) ;;
  lift (fmt data).

Definition gephi_set_edge_attributes (params : dict) : IO string :=
  data <- GephiClient.request gephi "POST" "/graph/edge/attributes" None (Some params) ;;
  lift (fmt data).

Definition gephi_set_node_color (params : dict) : IO string :=
  data <- GephiClient.request gephi "POST" "/appearance/node/color" None (Some params) ;;
  lift (fmt data).

Definition gephi_set_node_size (params : dict) : IO string :=
  data <- GephiClient.request gephi "POST" "/appearance/node/size" None (Some params) ;;
  lift (fmt data).

Definition gephi_set_edge_color (params : dict) : IO string :=
  data <- GephiClient.request gephi "POST" "/appearance/edge/color" None (Some params) ;;
  lift (fmt data).

Definition gephi_batch_set_node_colors (params : dict) : IO string :=
  data <- GephiClient.request gephi "POST" "/appearance/nodes/color" None (Some params) ;;
  lift (fmt data).

Definition gephi_reset_appearance (params : dict) : IO string :=
  data <- GephiClient.request gephi "POST" "/appearance/reset"
            None (Some (dict_or_empty params)) ;;
  lift (fmt data).

Definition gephi_color_by_partition (params : dict) : IO string :=
  data <- GephiClient.request gephi "POST" "/appearance/partition/color"
            None (Some params) ;;
  lift (fmt data).

Definition gephi_color_by_ranking (params : dict) : IO string :=
  data <- GephiClient.request gephi "POST" "/appearance/ranking/color"
            None (Some params) ;;
  lift (fmt data).

Definition gephi_size_by_ranking (params : dict) : IO string :=
  data <- GephiClient.request gephi "POST" "/appearance/ranking/size"
            None (Some params) ;;
  lift (fmt data).

Definition gephi_run_layout (params : dict) : IO string :=
  data <- GephiClient.request gephi "POST" "/layout/run" None (Some params) ;;
  lift (fmt data).

Definition gephi_stop_layout (params : dict) : IO string :=
  data <- GephiClient.request gephi "POST" "/layout/stop" None None ;;
  lift (fmt data).

Definition gephi_get_layout_status (params : dict) : IO string :=
  data <- GephiClient.request gephi "GET" "/layout/status" None None ;;
  lift (fmt data).

Definition gephi_get_available_layouts (params : dict) : IO string :=
  data <- GephiClient.request gephi "GET" "/layout/available" None None ;;
  lift (fmt data).

Definition gephi_get_layout_properties (params : dict) : IO string :=
  data <- GephiClient.request gephi "GET" "/layout/properties"
            (Some [("algorithm", dict_get params "algorithm" (VStr EmptyString))]) None ;;
  lift (fmt data).

Definition gephi_set_layout_properties (params : dict) : IO string :=
  data <- GephiClient.request gephi "POST" "/layout/properties" None (Some params) ;;
  lift (fmt data).

Definition gephi_compute_modularity (params : dict) : IO string :=
  data <- GephiClient.request gephi "POST" "/statistics/modularity"
            None (Some (dict_or_empty params)) ;;
  lift (fmt data).

Definition gephi_compute_degree (params : dict) : IO string :=
  data <- GephiClient.request gephi "POST" "/statistics/degree" None None ;;
  lift (fmt data).

Definition gephi_compute_betweenness (params : dict) : IO string :=
  data <- GephiClient.request gephi "POST" "/statistics/betweenness" None None ;;
  lift (fmt data).

Definition gephi_compute_pagerank (params : dict) : IO string :=
  data <- GephiClient.request gephi "POST" "/statistics/pagerank" None None ;;
  lift (fmt data).

Definition gephi_compute_connected_components (params : dict) : IO string :=
  data <- GephiClient.request gephi "POST" "/statistics/connected-components" None None ;;
  lift (fmt data).

Definition gephi_compute_clustering_coefficient (params : dict) : IO string :=
  data <- GephiClient.request gephi "POST" "/statistics/clustering-coefficient"
            None None ;;
  lift (fmt data).

Definition gephi_compute_avg_path_length (params : dict) : IO string :=
  data <- GephiClient.request gephi "POST" "/statistics/avg-path-length" None None ;;
  lift (fmt data).

Definition gephi_compute_hits (params : dict) : IO string :=
  data <- GephiClient.request gephi "POST" "/statistics/hits" None None ;;
  lift (fmt data).

Definition gephi_compute_eigenvector (params : dict) : IO string :=
  data <- GephiClient.request gephi "POST" "/statistics/eigenvector" None None ;;
  lift (fmt data).

Definition gephi_filter_by_degree (params : dict) : IO string :=
  data <- GephiClient.request gephi "POST" "/filter/degree" None (Some params) ;;
  lift (fmt data).

Definition gephi_filter_by_edge_weight (params : dict) : IO string :=
  data <- GephiClient.request gephi "POST" "/filter/edge-weight" None (Some params) ;;
  lift (fmt data).

Definition gephi_remove_isolates (params : dict) : IO string :=
  data <- GephiClient.request gephi "POST" "/filter/remove-isolates" None None ;;
  lift (fmt data).

Definition gephi_extract_ego_network (params : dict) : IO string :=
  data <- GephiClient.request gephi "POST" "/filter/ego-network" None (Some params) ;;
  lift (fmt data).

Definition gephi_extract_giant_component (params : dict) : IO string :=
  data <- GephiClient.request gephi "POST" "/filter/giant-component" None None ;;
  lift (fmt data).

Definition gephi_reset_filters (params : dict) : IO string :=
  data <- GephiClient.request gephi "POST" "/filter/reset" None None ;;
  lift (fmt data).

Definition gephi_clear_graph (params : dict) : IO string :=
  data <- GephiClient.request gephi "POST" "/graph/clear" None None ;;
  lift (fmt data).

Definition gephi_edge_thickness_by_weight (params : dict) : IO string :=
  data <- GephiClient.request gephi "POST" "/appearance/edge/thickness-by-weight"
            None (Some (dict_or_empty params)) ;;
  lift (fmt data).

Definition gephi_get_preview_settings (params : dict) : IO string :=
  data <- GephiClient.request gephi "GET" "/preview/settings" None None ;;
  lift (fmt data).

Definition gephi_set_preview_settings (params : dict) : IO string :=
  data <- GephiClient.request gephi "POST" "/preview/settings" None (Some params) ;;
  lift (fmt data).

Definition gephi_export_gexf (params : dict) : IO string :=
  data <- GephiClient.request gephi "POST" "/export/gexf" None (Some params) ;;
  lift (fmt data).

Definition gephi_export_png (params : dict) : IO string :=
  data <- GephiClient.request gephi "POST" "/export/png" None (Some params) ;;
  lift (fmt data).

Definition gephi_export_pdf (params : dict) : IO string :=
  data <- GephiClient.request gephi "POST" "/export/pdf" None (Some params) ;;
  lift (fmt data).

Definition gephi_export_svg (params : dict) : IO string :=
  data <- GephiClient.request gephi "POST" "/export/svg" None (Some params) ;;
  lift (fmt data).

Definition gephi_export_graphml (params : dict) : IO string :=
  data <- GephiClient.request gephi "POST" "/export/graphml" None (Some params) ;;
  lift (fmt data).

Definition gephi_export_csv (params : dict) : IO string :=
  data <- GephiClient.request gephi "POST" "/export/csv" None (Some params) ;;
  lift (fmt data).

Definition gephi_import_gexf (params : dict) : IO string :=
  data <- GephiClient.request gephi "POST" "/import/gexf" None (Some params) ;;
  lift (fmt data).

Definition gephi_import_graphml (params : dict) : IO string :=
  data <- GephiClient.request gephi "POST" "/import/graphml" None (Some params) ;;
  lift (fmt data).

Definition gephi_import_csv (params : dict) : IO string :=
  data <- GephiClient.request gephi "POST" "/import/csv" None (Some params) ;;
  lift (fmt data).

Definition gephi_import_file (params : dict) : IO string :=
  data <- GephiClient.request gephi "POST" "/import/file" None (Some params) ;;
  lift (fmt data).

(** ** The catalog *)

(** The two signatures the tool functions have:
    [async def f() -> str] and [async def f(params: dict) -> str]. *)
Inductive tool : Type :=
| Tool0 (fn : IO string)
| Tool1 (fn : dict -> IO string).

(** The functions registered with [@mcp.tool(name=...)], in source order. *)
Definition catalog : list (string * tool) :=
  [
    ("gephi_health_check", Tool0 gephi_health_check);
    ("gephi_create_project", Tool1 gephi_create_project);
    ("gephi_open_project", Tool1 gephi_open_project);
    ("gephi_save_project", Tool1 gephi_save_project);
    ("gephi_get_project_info", Tool1 gephi_get_project_info);
    ("gephi_new_workspace", Tool1 gephi_new_workspace);
    ("gephi_list_workspaces", Tool1 gephi_list_workspaces);
    ("gephi_switch_workspace", Tool1 gephi_switch_workspace);
    ("gephi_delete_workspace", Tool1 gephi_delete_workspace);
    ("gephi_add_node", Tool1 gephi_add_node);
    ("gephi_add_nodes", Tool1 gephi_add_nodes);
    ("gephi_remove_node", Tool1 gephi_remove_node);
    ("gephi_bulk_remove_nodes", Tool1 gephi_bulk_remove_nodes);
    ("gephi_query_nodes", Tool1 gephi_query_nodes);
    ("gephi_set_node_label", Tool1 gephi_set_node_label);
    ("gephi_set_node_position", Tool1 gephi_set_node_position);
    ("gephi_batch_set_positions", Tool1 gephi_batch_set_positions);
    ("gephi_add_edge", Tool1 gephi_add_edge);
    ("gephi_add_edges", Tool1 gephi_add_edges);
    ("gephi_remove_edge", Tool1 gephi_remove_edge);
    ("gephi_set_edge_weight", Tool1 gephi_set_edge_weight);
    ("gephi_set_edge_label", Tool1 gephi_set_edge_label);
    ("gephi_query_edges", Tool1 gephi_query_edges);
    ("gephi_get_graph_stats", Tool1 gephi_get_graph_stats);
    ("gephi_get_graph_type", Tool1 gephi_get_graph_type);
    ("gephi_get_columns", Tool1 gephi_get_columns);
    ("gephi_add_column", Tool1 gephi_add_column);
    ("gephi_set_node_attributes", Tool1 gephi_set_node_attributes);
    ("gephi_batch_set_node_attributes", Tool1 gephi_batch_set_node_attributes);
    ("gephi_set_edge_attributes", Tool1 gephi_set_edge_attributes);
    ("gephi_set_node_color", Tool1 gephi_set_node_color);
    ("gephi_set_node_size", Tool1 gephi_set_node_size);
    ("gephi_set_edge_color", Tool1 gephi_set_edge_color);
    ("gephi_batch_set_node_colors", Tool1 gephi_batch_set_node_colors);
    ("gephi_reset_appearance", Tool1 gephi_reset_appearance);
    ("gephi_color_by_partition", Tool1 gephi_color_by_partition);
    ("gephi_color_by_ranking", Tool1 gephi_color_by_ranking);
    ("gephi_size_by_ranking", Tool1 gephi_size_by_ranking);
    ("gephi_run_layout", Tool1 gephi_run_layout);
    ("gephi_stop_layout", Tool1 gephi_stop_layout);
    ("gephi_get_layout_status", Tool1 gephi_get_layout_status);
    ("gephi_get_available_layouts", Tool1 gephi_get_available_layouts);
    ("gephi_get_layout_properties", Tool1 gephi_get_layout_properties);
    ("gephi_set_layout_properties", Tool1 gephi_set_layout_properties);
    ("gephi_compute_modularity", Tool1 gephi_compute_modularity);
    ("gephi_compute_degree", Tool1 gephi_compute_degree);
    ("gephi_compute_betweenness", Tool1 gephi_compute_betweenness);
    ("gephi_compute_pagerank", Tool1 gephi_compute_pagerank);
    ("gephi_compute_connected_components", Tool1 gephi_compute_connected_components);
    ("gephi_compute_clustering_coefficient", Tool1 gephi_compute_clustering_coefficient);
    ("gephi_compute_avg_path_length", Tool1 gephi_compute_avg_path_length);
    ("gephi_compute_hits", Tool1 gephi_compute_hits);
    ("gephi_compute_eigenvector", Tool1 gephi_compute_eigenvector);
    ("gephi_filter_by_degree", Tool1 gephi_filter_by_degree);
    ("gephi_filter_by_edge_weight", Tool1 gephi_filter_by_edge_weight);
    ("gephi_remove_isolates", Tool1 gephi_remove_isolates);
    ("gephi_extract_ego_network", Tool1 gephi_extract_ego_network);
    ("gephi_extract_giant_component", Tool1 gephi_extract_giant_component);
    ("gephi_reset_filters", Tool1 gephi_reset_filters);
    ("gephi_clear_graph", Tool1 gephi_clear_graph);
    ("gephi_edge_thickness_by_weight", Tool1 gephi_edge_thickness_by_weight);
    ("gephi_get_preview_settings", Tool1 gephi_get_preview_settings);
    ("gephi_set_preview_settings", Tool1 gephi_set_preview_settings);
    ("gephi_export_gexf", Tool1 gephi_export_gexf);
    ("gephi_export_png", Tool1 gephi_export_png);
    ("gephi_export_pdf", Tool1 gephi_export_pdf);
    ("gephi_export_svg", Tool1 gephi_export_svg);
    ("gephi_export_graphml", Tool1 gephi_export_graphml);
    ("gephi_export_csv", Tool1 gephi_export_csv);
    ("gephi_import_gexf", Tool1 gephi_import_gexf);
    ("gephi_import_graphml", Tool1 gephi_import_graphml);
    ("gephi_import_csv", Tool1 gephi_import_csv);
    ("gephi_import_file", Tool1 gephi_import_file)
  ].

End Tools.

(** ** Vocabulary of the statements *)

(** The call [self.request(method, endpoint, params, json_data)] hands to
    httpx. *)
Definition issued (self : GephiClient.t) (method endpoint : string)
    (params json_data : option dict) : HttpCall :=
  mkCall (GephiClient.timeout self) method (GephiClient.base_url self ++ endpoint)
         params json_data.

(** A mapping a caller can branch on: [success] is [False] and [error] is a
    message. *)
Definition is_failure_mapping (v : value) : bool :=
  match v with
  | VDict d =>
      match dict_lookup d "success", dict_lookup d "error" with
      | Some (VBool false), Some (VStr _) => true
      | _, _ => false
      end
  | _ => false
  end.

(** The response an answer of the world holds: the one returned, or the one
    an [HTTPStatusError] carries. *)
Definition response_of (answer : pyresult Response) : option Response :=
  match answer with
  | Return r => Some r
  | Raise (HTTPStatusError r) => Some r
  | Raise _ => None
  end.


(** The encoder at a given level, with its result named. *)
Definition renders (level : nat) (o : value) (s : string) : Prop :=
  iterencode level o = Return s.

(** The chunks of a list, as [iterencode] joins them. *)
Fixpoint list_chunks (level : nat) (first : bool) (l : list value) : pyresult string :=
  match l with
  | [] => Return EmptyString
  | x :: rest =>
      pbind (iterencode (S level) x) (fun sx =>
      pbind (list_chunks level false rest) (fun srest =>
      Return (lead first (S level) ++ sx ++ srest)))
  end.

(** The chunks of a dict, as [iterencode] joins them. *)
Fixpoint dict_chunks (level : nat) (first : bool) (l : list (string * value))
  : pyresult string :=
  match l with
  | [] => Return EmptyString
  | (k, x) :: rest =>
      pbind (iterencode (S level) x) (fun sx =>
      pbind (dict_chunks level false rest) (fun srest =>
      Return (lead first (S level) ++ encode_basestring_ascii k ++ ": "
              ++ sx ++ srest)))
  end.

(** The members of a rendered object at nesting level 1: each key, in the
    order given, followed by the text of its own value. *)
Fixpoint members (first : bool) (l : list (string * string)) : string :=
  match l with
  | [] => EmptyString
  | (k, s) :: rest =>
      lead first 1 ++ encode_basestring_ascii k ++ ": " ++ s ++ members false rest
  end.

(** The text of an object with the given members. *)
Definition object_text (l : list (string * string)) : string :=
  match l with
  | [] => "{}"
  | _ :: _ => "{" ++ members true l ++ nl ++ "}"
  end.


(** The body a tool runs once Python has bound its arguments. *)
Definition tool_body (f : tool) (params : dict) : IO string :=
  match f with
  | Tool0 fn => fn
  | Tool1 fn => fn params
  end.




(** The text [fmt] gives for [{"success": False, "error": msg}]. *)
Definition failure_text (msg : string) : string :=
  "{" ++ nl ++ "  " ++ dq ++ "success" ++ dq ++ ": false," ++ nl
  ++ "  " ++ dq ++ "error" ++ dq ++ ": " ++ encode_basestring_ascii msg ++ nl ++ "}".

(** [s.endswith(c)] for a single character [c]. *)
Fixpoint ends_with (c : ascii) (s : string) : bool :=
  match s with
  | EmptyString => false
  | String a EmptyString => Ascii.eqb a c
  | String _ rest => ends_with c rest
  end.

(** [c * k] *)
Fixpoint repeat_char (c : ascii) (k : nat) : string :=
  match k with
  | O => EmptyString
  | S k' => String c (repeat_char c k')
  end.

(** ** Worlds used in the examples *)

(** Every call is answered by the same response. *)
Definition answering (r : Response) : World := mkWorld (fun _ _ => Return r) [].

(** Every call fails in httpx with the same exception. *)
Definition failing (e : exn) : World := mkWorld (fun _ _ => Raise e) [].

(** The text [{"k": "s"}]. *)
Definition object_text_1 (k s : string) : string :=
  "{" ++ dq ++ k ++ dq ++ ": " ++ dq ++ s ++ dq ++ "}".

(** 404 with the body [{"detail": "Not Found"}]. *)
Definition not_found_detail : Response :=
  mkResponse 404 (object_text_1 "detail" "Not Found")
             (Decoded (VDict [("detail", VStr "Not Found")])).

(** 404 with the body [{"success": false, "error": "node not found"}]. *)
Definition node_not_found : Response :=
  mkResponse 404
    ("{" ++ dq ++ "success" ++ dq ++ ": false, " ++ dq ++ "error" ++ dq ++ ": "
     ++ dq ++ "node not found" ++ dq ++ "}")
    (Decoded (failure "node not found")).

(** 200 with a body that is not JSON. *)
Definition html_ok : Response :=
  mkResponse 200 "<html>ok</html>"
             (DecodeError "JSONDecodeError" "Expecting value: line 1 column 1 (char 0)").

(** 200 with the body [{"success": true, "nodeCount": 5}]. *)
Definition stats_ok : Response :=
  mkResponse 200
    ("{" ++ dq ++ "success" ++ dq ++ ": true, " ++ dq ++ "nodeCount" ++ dq ++ ": 5}")
    (Decoded (VDict [("success", VBool true); ("nodeCount", VInt 5)])).

(** A [repr] for the containers, for the examples that need one. *)
Definition elided_repr (v : value) : string :=
  match v with
  | VList _ => "[...]"
  | _ => "{...}"
  end.

(** * Properties *)

(** ** Running the client *)

Ltac run_request :=
  cbv beta iota zeta delta
    [GephiClient.request try_except bind ret raise lift AsyncClient_request
     raise_for_status Response_json issued].

Lemma request_run (self : GephiClient.t) (method endpoint : string)
    (params json_data : option dict) (w : World) :
  exists v,
    GephiClient.request self method endpoint params json_data w
    = (Return v,
       mkWorld (respond w) (sent w ++ [issued self method endpoint params json_data])).
Proof.
  run_request.
  destruct (respond w (sent w) _) as [r | e].
  - destruct (is_success r); cbv beta iota; destruct (json_body r); eexists; reflexivity.
  - destruct e as [msg | msg | r | cls msg]; try (eexists; reflexivity).
    destruct (json_body r); eexists; reflexivity.
Qed.

(** What [request] returns, read off the answer of the world. *)
Lemma request_on_response (self : GephiClient.t) (method endpoint : string)
    (params json_data : option dict) (w : World) (r : Response) :
  respond w (sent w) (issued self method endpoint params json_data) = Return r ->
  fst (GephiClient.request self method endpoint params json_data w)
  = Return
      match json_body r with
      | Decoded v => v
      | DecodeError _ msg =>
          if is_success r then failure ("Request failed: " ++ msg)
          else failure ("HTTP " ++ int_repr (status_code r) ++ ": " ++ text r)
      end.
Proof.
  intros Hr. run_request. unfold issued in Hr. rewrite Hr.
  destruct (is_success r); cbv beta iota; destruct (json_body r); reflexivity.
Qed.

Lemma request_on_exception (self : GephiClient.t) (method endpoint : string)
    (params json_data : option dict) (w : World) (e : exn) :
  respond w (sent w) (issued self method endpoint params json_data) = Raise e ->
  (forall r, e <> HTTPStatusError r) ->
  fst (GephiClient.request self method endpoint params json_data w)
  = Return
      match e with
      | ConnectError _ =>
          failure ("Cannot connect to Gephi at " ++ GephiClient.base_url self
                   ++ ". Ensure Gephi is running with the MCP plugin installed.")
      | TimeoutException _ =>
          failure "Request timed out. The operation may still be running in Gephi."
      | HTTPStatusError _ => VNone
      | PyException _ msg => failure ("Request failed: " ++ msg)
      end.
Proof.
  intros He Hn. run_request. unfold issued in He. rewrite He.
  destruct e as [msg | msg | r | cls msg]; try reflexivity.
  exfalso. apply (Hn r). reflexivity.
Qed.

(** ** The transport client *)

(** C1 (as amended): for every method, endpoint, query parameters and body,
    and whatever the network does, [request] returns a value and raises
    nothing, after exactly one call.  When the world holds a response (the one
    received, or the one an [HTTPStatusError] carries) whose body decodes as
    JSON, the value is that body as it is, whatever the status and whatever
    the shape of the body; in every other case it is a mapping with
    [success: False] and an [error] message. *)
Theorem request_returns_body_or_failure_mapping
    (self : GephiClient.t) (method endpoint : string)
    (params json_data : option dict) (w : World) :
  exists v,
    GephiClient.request self method endpoint params json_data w
    = (Return v,
       mkWorld (respond w) (sent w ++ [issued self method endpoint params json_data]))
    /\ (forall r body,
          response_of (respond w (sent w)
                         (issued self method endpoint params json_data)) = Some r ->
          json_body r = Decoded body ->
          v = body)
    /\ ((exists r,
           response_of (respond w (sent w)
                          (issued self method endpoint params json_data)) = Some r
           /\ json_body r = Decoded v)
        \/ is_failure_mapping v = true).
Proof.
  run_request.
  destruct (respond w (sent w) _) as [r | e] eqn:Hw.
  - destruct (is_success r); cbv beta iota;
      destruct (json_body r) as [v | cls msg] eqn:Hj; eexists;
      (split; [reflexivity |]);
      (split;
       [ intros r' body [= <-] Hb; rewrite Hj in Hb;
         first [injection Hb as <-; reflexivity | discriminate Hb]
       | first [ left; exists r; split; [reflexivity | exact Hj]
               | right; reflexivity ] ]).
  - destruct e as [msg | msg | r | cls msg];
      try (eexists; split;
           [reflexivity | split; [intros r' body [=] | right; reflexivity]]).
    destruct (json_body r) as [v | cls msg] eqn:Hj; eexists;
      (split; [reflexivity |]);
      (split;
       [ intros r' body [= <-] Hb; rewrite Hj in Hb;
         first [injection Hb as <-; reflexivity | discriminate Hb]
       | first [ left; exists r; split; [reflexivity | exact Hj]
               | right; reflexivity ] ]).
Qed.

(** C2: when the request completes with a status outside 2xx, [request]
    first decodes the body as JSON and returns the decoded body unchanged;
    only when decoding raises does it return the failure whose message is
    [HTTP <status>: <raw text>]. *)
Theorem http_error_two_tier
    (self : GephiClient.t) (method endpoint : string)
    (params json_data : option dict) (w : World) (r : Response) :
  respond w (sent w) (issued self method endpoint params json_data) = Return r ->
  is_success r = false ->
  (forall v, json_body r = Decoded v ->
     fst (GephiClient.request self method endpoint params json_data w) = Return v)
  /\ (forall cls msg, json_body r = DecodeError cls msg ->
        fst (GephiClient.request self method endpoint params json_data w)
        = Return (failure ("HTTP " ++ int_repr (status_code r) ++ ": " ++ text r))).
Proof.
  intros Hr Hs. rewrite (request_on_response _ _ _ _ _ _ _ Hr), Hs.
  split; [intros v Hj | intros cls msg Hj]; rewrite Hj; reflexivity.
Qed.

(** C3: when httpx cannot establish the connection, [request] returns, for
    every method (GET, POST and DELETE among them), the failure whose message
    names the client's base address and asks to ensure that Gephi is running
    with the plugin installed; for the client of the module that address is
    [GEPHI_API_URL]. *)
Theorem connect_error_names_base_url
    (self : GephiClient.t) (method endpoint : string)
    (params json_data : option dict) (w : World) (msg : string) :
  respond w (sent w) (issued self method endpoint params json_data)
  = Raise (ConnectError msg) ->
  fst (GephiClient.request self method endpoint params json_data w)
  = Return (failure ("Cannot connect to Gephi at " ++ GephiClient.base_url self
                     ++ ". Ensure Gephi is running with the MCP plugin installed."))
  /\ GephiClient.base_url gephi = GEPHI_API_URL.
Proof.
  intros He. split; [| reflexivity].
  rewrite (request_on_exception _ _ _ _ _ _ _ He); [reflexivity | discriminate].
Qed.

(** C4: when the call exceeds the timeout the client was built with (httpx
    raises [TimeoutException]), [request] returns, after that one call and no
    other, the failure saying that the operation may still be running in
    Gephi; the budget is the one constant [REQUEST_TIMEOUT], and that failure
    differs from every connection failure and from every HTTP status
    failure. *)
Theorem timeout_failure_distinct
    (base : string) (method endpoint : string)
    (params json_data : option dict) (w : World) (msg : string) :
  let self := GephiClient.__init__ base in
  respond w (sent w) (issued self method endpoint params json_data)
  = Raise (TimeoutException msg) ->
  GephiClient.request self method endpoint params json_data w
  = (Return (failure "Request timed out. The operation may still be running in Gephi."),
     mkWorld (respond w) (sent w ++ [issued self method endpoint params json_data]))
  /\ call_timeout (issued self method endpoint params json_data) = REQUEST_TIMEOUT
  /\ (forall url,
        failure "Request timed out. The operation may still be running in Gephi."
        <> failure ("Cannot connect to Gephi at " ++ url
                    ++ ". Ensure Gephi is running with the MCP plugin installed."))
  /\ (forall status body,
        failure "Request timed out. The operation may still be running in Gephi."
        <> failure ("HTTP " ++ int_repr status ++ ": " ++ body)).
Proof.
  intros self He. repeat split.
  - destruct (request_run self method endpoint params json_data w) as [v Hv].
    pose proof (request_on_exception _ _ _ _ _ _ _ He) as Hf.
    rewrite Hv in Hf |- *. simpl in Hf.
    rewrite Hf by discriminate. reflexivity.
  - intros url H. discriminate H.
  - intros status body H. discriminate H.
Qed.

(** C5 (as amended): when the request completes with a 2xx status and the
    body decodes as JSON, [request] returns the decoded body; when the body
    does not decode, it returns the failure [Request failed: <message of the
    decoder>], which is the very result any other unanticipated exception
    with that message produces: the result carries no kind of its own for a
    decoding failure. *)
Theorem ok_status_body_or_request_failed
    (self : GephiClient.t) (method endpoint : string)
    (params json_data : option dict) (w : World) (r : Response) :
  respond w (sent w) (issued self method endpoint params json_data) = Return r ->
  is_success r = true ->
  (forall v, json_body r = Decoded v ->
     fst (GephiClient.request self method endpoint params json_data w) = Return v)
  /\ (forall cls msg, json_body r = DecodeError cls msg ->
        fst (GephiClient.request self method endpoint params json_data w)
        = Return (failure ("Request failed: " ++ msg))
        /\ forall w' cls',
             respond w' (sent w') (issued self method endpoint params json_data)
             = Raise (PyException cls' msg) ->
             fst (GephiClient.request self method endpoint params json_data w')
             = fst (GephiClient.request self method endpoint params json_data w)).
Proof.
  intros Hr Hs. rewrite (request_on_response _ _ _ _ _ _ _ Hr), Hs.
  split; [intros v Hj | intros cls msg Hj]; rewrite Hj; [reflexivity |].
  split; [reflexivity |].
  intros w' cls' He.
  rewrite (request_on_exception _ _ _ _ _ _ _ He); [reflexivity | discriminate].
Qed.

(** ** The tools *)

(** A tool body: the world after it is the world after its one request. *)
Lemma fmt_await_log (self : GephiClient.t) (method endpoint : string)
    (params json_data : option dict) (w : World) :
  sent (snd ((data <- GephiClient.request self method endpoint params json_data ;;
              lift (fmt data)) w))
  = (sent w ++ [issued self method endpoint params json_data])%list.
Proof.
  unfold bind.
  destruct (request_run self method endpoint params json_data w) as [v Hv].
  rewrite Hv. reflexivity.
Qed.

(** C6: the two listing tools, [gephi_query_nodes] and [gephi_query_edges],
    issue one GET whose query parameters are [limit] and [offset]: each is the
    caller's value when the parameter object has the key, and 100
    (respectively 0) when it has not. *)
Theorem listing_pagination_defaults
    (params : dict) (limit offset : value) (w : World) :
  (dict_lookup params "limit" = None /\ limit = VInt 100
   \/ dict_lookup params "limit" = Some limit) ->
  (dict_lookup params "offset" = None /\ offset = VInt 0
   \/ dict_lookup params "offset" = Some offset) ->
  sent (snd (gephi_query_nodes params w))
  = (sent w ++ [mkCall REQUEST_TIMEOUT "GET" "http://127.0.0.1:8080/graph/nodes"
                      (Some [("limit", limit); ("offset", offset)]) None])%list
  /\ sent (snd (gephi_query_edges params w))
     = (sent w ++ [mkCall REQUEST_TIMEOUT "GET" "http://127.0.0.1:8080/graph/edges"
                         (Some [("limit", limit); ("offset", offset)]) None])%list.
Proof.
  intros Hl Ho.
  assert (El : dict_get params "limit" (VInt 100) = limit).
  { unfold dict_get. destruct Hl as [[Hn ->] | Hs]; [rewrite Hn | rewrite Hs]; reflexivity. }
  assert (Eo : dict_get params "offset" (VInt 0) = offset).
  { unfold dict_get. destruct Ho as [[Hn ->] | Hs]; [rewrite Hn | rewrite Hs]; reflexivity. }
  unfold gephi_query_nodes, gephi_query_edges.
  rewrite !fmt_await_log, El, Eo. split; reflexivity.
Qed.

(** C7 (as amended): [gephi_delete_workspace] invoked without [index] issues
    one DELETE on [/workspace/delete] with the query parameter [index] set to
    the text [0]; [gephi_switch_workspace] issues one POST on
    [/workspace/switch] whose JSON body is the caller's parameter object as it
    is. *)
Theorem workspace_index_forwarding
    (container_repr : value -> string) (params : dict) (w : World) :
  (dict_lookup params "index" = None ->
   sent (snd (gephi_delete_workspace container_repr params w))
   = (sent w ++ [mkCall REQUEST_TIMEOUT "DELETE" "http://127.0.0.1:8080/workspace/delete"
                       (Some [("index", VStr "0")]) None])%list)
  /\ sent (snd (gephi_switch_workspace params w))
     = (sent w ++ [mkCall REQUEST_TIMEOUT "POST" "http://127.0.0.1:8080/workspace/switch"
                         None (Some params)])%list.
Proof.
  unfold gephi_delete_workspace, gephi_switch_workspace.
  rewrite !fmt_await_log. split; [| reflexivity].
  intros Hn. unfold dict_get. rewrite Hn. reflexivity.
Qed.

(** C10: [gephi_remove_node] invoked without [id] does what a DELETE on
    [/graph/node/] does: it issues that one request, with an empty last
    segment, and returns its formatted outcome; nothing is rejected before the
    request. *)
Theorem remove_node_without_id
    (container_repr : value -> string) (params : dict) (w : World) :
  dict_lookup params "id" = None ->
  gephi_remove_node container_repr params w
  = (data <- GephiClient.request gephi "DELETE" "/graph/node/" None None ;;
     lift (fmt data)) w
  /\ sent (snd (gephi_remove_node container_repr params w))
     = (sent w ++ [mkCall REQUEST_TIMEOUT "DELETE" "http://127.0.0.1:8080/graph/node/"
                         None None])%list.
Proof.
  intros Hn. unfold gephi_remove_node, dict_get. rewrite Hn.
  split; [reflexivity |]. rewrite fmt_await_log. reflexivity.
Qed.

(** ** The formatter *)

(** Induction over values, through the lists they nest in. *)
Lemma value_nested_ind (P : value -> Prop) :
  P VNone ->
  (forall b, P (VBool b)) ->
  (forall z, P (VInt z)) ->
  (forall f, P (VFloat f)) ->
  (forall s, P (VStr s)) ->
  (forall lst, Forall P lst -> P (VList lst)) ->
  (forall dct, Forall (fun kv => P (snd kv)) dct -> P (VDict dct)) ->
  (forall cls s, P (VOther cls s)) ->
  forall v, P v.
Proof.
  intros HNone HBool HInt HFloat HStr HList HDict HOther.
  fix IH 1. intros v. destruct v as [| b | z | f | s | lst | dct | cls s].
  - exact HNone.
  - apply HBool.
  - apply HInt.
  - apply HFloat.
  - apply HStr.
  - apply HList. induction lst as [| x lst IHl]; constructor; [apply IH | exact IHl].
  - apply HDict. induction dct as [| [k x] dct IHd]; constructor; [apply IH | exact IHd].
  - apply HOther.
Qed.

Lemma iterencode_list (level : nat) (x : value) (rest : list value) :
  iterencode level (VList (x :: rest))
  = pbind (list_chunks level true (x :: rest)) (fun body =>
    Return ("[" ++ body ++ nl ++ indentation level ++ "]")).
Proof.
  cbn [iterencode list_chunks].
  match goal with
  | |- context [?chunks false rest] =>
      assert (E : forall first l, chunks first l = list_chunks level first l)
  end.
  { intros first l. revert first.
    induction l as [| y l IHl]; intros first; [reflexivity |].
    cbn [list_chunks]. rewrite <- IHl. reflexivity. }
  rewrite E. reflexivity.
Qed.

Lemma iterencode_dict (level : nat) (kx : string * value)
    (rest : list (string * value)) :
  iterencode level (VDict (kx :: rest))
  = pbind (dict_chunks level true (kx :: rest)) (fun body =>
    Return ("{" ++ body ++ nl ++ indentation level ++ "}")).
Proof.
  destruct kx as [k x]. cbn [iterencode dict_chunks].
  match goal with
  | |- context [?chunks false rest] =>
      assert (E : forall first l, chunks first l = dict_chunks level first l)
  end.
  { intros first l. revert first.
    induction l as [| [k' y] l IHl]; intros first; [reflexivity |].
    cbn [dict_chunks]. rewrite <- IHl. reflexivity. }
  rewrite E. reflexivity.
Qed.

(** Every value built from the JSON types is encoded, at every level. *)
Lemma iterencode_total (o : value) :
  renderable o = true -> forall level, exists s, iterencode level o = Return s.
Proof.
  induction o as [| b | z | f | s | lst IHl | dct IHd | cls s] using value_nested_ind;
    intros Hr level; try (eexists; reflexivity).
  - destruct b; eexists; reflexivity.
  - destruct lst as [| x rest]; [eexists; reflexivity |].
    rewrite iterencode_list.
    assert (Hc : forall first, exists body, list_chunks level first (x :: rest) = Return body).
    { cbn [renderable] in Hr. revert Hr IHl. generalize (x :: rest). clear x rest.
      induction l as [| y l IHc]; intros Hr IHl first; [eexists; reflexivity |].
      cbn [forallb] in Hr. apply andb_true_iff in Hr. destruct Hr as [Hy Hl].
      inversion IHl as [| ? ? Py Pl]; subst.
      destruct (Py Hy (S level)) as [sy Ey].
      destruct (IHc Hl Pl false) as [sl El].
      cbn [list_chunks]. rewrite Ey. cbn [pbind]. rewrite El. eexists; reflexivity. }
    destruct (Hc true) as [body Eb]. rewrite Eb. eexists; reflexivity.
  - destruct dct as [| kx rest]; [eexists; reflexivity |].
    rewrite iterencode_dict.
    assert (Hc : forall first, exists body, dict_chunks level first (kx :: rest) = Return body).
    { cbn [renderable] in Hr. revert Hr IHd. generalize (kx :: rest). clear kx rest.
      induction l as [| [k y] l IHc]; intros Hr IHd first; [eexists; reflexivity |].
      cbn [forallb snd] in Hr. apply andb_true_iff in Hr. destruct Hr as [Hy Hl].
      inversion IHd as [| ? ? Py Pl]; subst. cbn [snd] in Py.
      destruct (Py Hy (S level)) as [sy Ey].
      destruct (IHc Hl Pl false) as [sl El].
      cbn [dict_chunks]. rewrite Ey. cbn [pbind]. rewrite El. eexists; reflexivity. }
    destruct (Hc true) as [body Eb]. rewrite Eb. eexists; reflexivity.
  - discriminate Hr.
Qed.

(** The members of a rendered object are its items in their order, each key
    with the text of its own value. *)
Lemma dict_chunks_members (l : list (string * value)) :
  forallb (fun kv => renderable (snd kv)) l = true ->
  forall first,
  exists texts,
    Forall2 (renders 1) (map snd l) texts
    /\ dict_chunks 0 first l = Return (members first (combine (map fst l) texts)).
Proof.
  induction l as [| [k x] l IHl]; intros Hr first.
  - exists []. split; [constructor | reflexivity].
  - cbn [forallb snd] in Hr. apply andb_true_iff in Hr. destruct Hr as [Hx Hl].
    destruct (iterencode_total x Hx 1) as [sx Ex].
    destruct (IHl Hl false) as [texts [Ht El]].
    exists (sx :: texts). split; [constructor; assumption |].
    cbn [dict_chunks map fst snd combine members]. rewrite Ex. cbn [pbind].
    rewrite El. reflexivity.
Qed.

(** C9 (as amended): [fmt] is a function of its argument alone, and for every
    value built from the JSON types (every value the transport client can
    return) it returns a string; a mapping is rendered as its items in
    insertion order, each key followed by the text of its own value, indented
    by two spaces, so that [{"success": True, "nodeCount": 5}] renders with
    both keys, their values and their order. *)
Theorem fmt_renders_json_values (data : value) :
  renderable data = true ->
  (exists s, fmt data = Return s)
  /\ (forall items, data = VDict items ->
        exists texts,
          Forall2 (renders 1) (map snd items) texts
          /\ fmt data = Return (object_text (combine (map fst items) texts)))
  /\ fmt (VDict [("success", VBool true); ("nodeCount", VInt 5)])
     = Return ("{" ++ nl ++ "  " ++ dq ++ "success" ++ dq ++ ": true," ++ nl
               ++ "  " ++ dq ++ "nodeCount" ++ dq ++ ": 5" ++ nl ++ "}").
Proof.
  intros Hr. split; [| split].
  - apply iterencode_total. exact Hr.
  - intros items ->. cbn [renderable] in Hr.
    destruct items as [| kx rest].
    + exists []. split; [constructor | reflexivity].
    + destruct (dict_chunks_members (kx :: rest) Hr true) as [texts [Ht Ec]].
      exists texts. split; [exact Ht |].
      unfold fmt, dumps_indent2. rewrite iterencode_dict, Ec.
      destruct kx as [k x]. inversion Ht; subst. reflexivity.
  - reflexivity.
Qed.

(** ** The catalog *)



Ltac each_tool H :=
  cbn [catalog In] in H;
  repeat (destruct H as [H | H]; [injection H as <- <- |]);
  [.. | contradiction H].

(** * Concrete runs *)

Example base_url_strips_trailing_slashes :
  GephiClient.base_url (GephiClient.__init__ "http://localhost:8080//")
  = "http://localhost:8080".
Proof. reflexivity. Qed.

(** A 500 whose body is plain text falls back to the synthesised message. *)
Example server_error_plain_text :
  fst (GephiClient.request gephi "POST" "/layout/run" None (Some [])
         (answering (mkResponse 500 "Internal Server Error"
                       (DecodeError "JSONDecodeError"
                          "Expecting value: line 1 column 1 (char 0)"))))
  = Return (failure "HTTP 500: Internal Server Error").
Proof. reflexivity. Qed.

(** A 200 with a JSON body is formatted as it came. *)
Example health_check_formats_the_body :
  fst (gephi_health_check (answering stats_ok))
  = Return ("{" ++ nl ++ "  " ++ dq ++ "success" ++ dq ++ ": true," ++ nl
            ++ "  " ++ dq ++ "nodeCount" ++ dq ++ ": 5" ++ nl ++ "}").
Proof. reflexivity. Qed.

Example fmt_nested :
  fmt (VDict [("ids", VList [VInt (-3); VStr "a/b"; VList []]); ("meta", VDict [])])
  = Return ("{" ++ nl ++ "  " ++ dq ++ "ids" ++ dq ++ ": [" ++ nl
            ++ "    -3," ++ nl
            ++ "    " ++ dq ++ "a/b" ++ dq ++ "," ++ nl
            ++ "    []" ++ nl
            ++ "  ]," ++ nl
            ++ "  " ++ dq ++ "meta" ++ dq ++ ": {}" ++ nl ++ "}").
Proof. reflexivity. Qed.

Example fmt_escapes :
  fmt (VStr ("tab" ++ String (ascii_of_nat 9) (String (ascii_of_nat 233) EmptyString)))
  = Return (dq ++ "tab" ++ backslash ++ "t" ++ backslash ++ "u00e9" ++ dq).
Proof. reflexivity. Qed.

Example remove_node_with_id :
  sent (snd (gephi_remove_node elided_repr [("id", VInt 7)] (answering stats_ok)))
  = [mkCall REQUEST_TIMEOUT "DELETE" "http://127.0.0.1:8080/graph/node/7" None None].
Proof. reflexivity. Qed.

Example delete_workspace_with_index :
  sent (snd (gephi_delete_workspace elided_repr [("index", VInt 2)] (answering stats_ok)))
  = [mkCall REQUEST_TIMEOUT "DELETE" "http://127.0.0.1:8080/workspace/delete"
            (Some [("index", VStr "2")]) None].
Proof. reflexivity. Qed.

Example query_nodes_with_limit_only :
  sent (snd (gephi_query_nodes [("limit", VInt 10)] (answering stats_ok)))
  = [mkCall REQUEST_TIMEOUT "GET" "http://127.0.0.1:8080/graph/nodes"
            (Some [("limit", VInt 10); ("offset", VInt 0)]) None].
Proof. reflexivity. Qed.


(** A 404 whose body is [{"detail": "Not Found"}] comes back as that mapping:
    a failed request whose result has neither [success] nor [error]. *)
Lemma http_error_body_not_failure_mapping :
  is_success not_found_detail = false
  /\ fst (GephiClient.request gephi "GET" "/graph/nodes" None None
            (answering not_found_detail))
     = Return (VDict [("detail", VStr "Not Found")])
  /\ is_failure_mapping (VDict [("detail", VStr "Not Found")]) = false.
Proof. repeat split. Qed.

Lemma request_returns_body_or_failure_mapping_witness :
  exists v,
    GephiClient.request gephi "GET" "/graph/nodes" None None (answering not_found_detail)
    = (Return v,
       mkWorld (fun _ _ => Return not_found_detail)
               [issued gephi "GET" "/graph/nodes" None None])
    /\ v = VDict [("detail", VStr "Not Found")].
Proof.
  destruct (request_returns_body_or_failure_mapping gephi "GET" "/graph/nodes"
              None None (answering not_found_detail)) as [v [Hr [Hb _]]].
  exists v. split; [exact Hr |].
  exact (Hb not_found_detail _ eq_refl eq_refl).
Defined.

(** The 404 of the controlled application, [{"success": false, "error":
    "node not found"}], is passed through. *)
Lemma http_error_two_tier_witness :
  respond (answering node_not_found) []
          (issued gephi "DELETE" "/graph/node/n1" None None) = Return node_not_found
  /\ is_success node_not_found = false
  /\ fst (GephiClient.request gephi "DELETE" "/graph/node/n1" None None
            (answering node_not_found))
     = Return (failure "node not found").
Proof.
  split; [reflexivity | split; [reflexivity |]].
  apply (proj1 (http_error_two_tier gephi "DELETE" "/graph/node/n1" None None
                  (answering node_not_found) node_not_found eq_refl eq_refl)).
  reflexivity.
Defined.

Lemma connect_error_names_base_url_witness :
  respond (failing (ConnectError "All connection attempts failed")) []
          (issued gephi "POST" "/layout/run" None (Some []))
  = Raise (ConnectError "All connection attempts failed")
  /\ fst (GephiClient.request gephi "POST" "/layout/run" None (Some [])
            (failing (ConnectError "All connection attempts failed")))
     = Return (failure ("Cannot connect to Gephi at http://127.0.0.1:8080. "
                        ++ "Ensure Gephi is running with the MCP plugin installed.")).
Proof.
  split; [reflexivity |].
  exact (proj1 (connect_error_names_base_url gephi "POST" "/layout/run" None (Some [])
                  (failing (ConnectError "All connection attempts failed"))
                  "All connection attempts failed" eq_refl)).
Defined.

Lemma timeout_failure_distinct_witness :
  respond (failing (TimeoutException "ReadTimeout")) []
          (issued (GephiClient.__init__ GEPHI_API_URL) "POST" "/layout/run" None
                  (Some [("algorithm", VStr "forceatlas2")]))
  = Raise (TimeoutException "ReadTimeout")
  /\ GephiClient.request gephi "POST" "/layout/run" None
       (Some [("algorithm", VStr "forceatlas2")])
       (failing (TimeoutException "ReadTimeout"))
     = (Return (failure "Request timed out. The operation may still be running in Gephi."),
        mkWorld (fun _ _ => Raise (TimeoutException "ReadTimeout"))
          [mkCall REQUEST_TIMEOUT "POST" "http://127.0.0.1:8080/layout/run" None
                  (Some [("algorithm", VStr "forceatlas2")])]).
Proof.
  split; [reflexivity |].
  exact (proj1 (timeout_failure_distinct GEPHI_API_URL "POST" "/layout/run" None
                  (Some [("algorithm", VStr "forceatlas2")])
                  (failing (TimeoutException "ReadTimeout")) "ReadTimeout" eq_refl)).
Defined.

(** A 200 whose body is not JSON and an unanticipated exception with the
    decoder's message give the caller the same mapping. *)
Lemma decode_failure_same_as_other_failure :
  is_success html_ok = true
  /\ fst (GephiClient.request gephi "GET" "/graph/stats" None None (answering html_ok))
     = Return (failure "Request failed: Expecting value: line 1 column 1 (char 0)")
  /\ fst (GephiClient.request gephi "GET" "/graph/stats" None None
            (failing (PyException "RuntimeError"
                        "Expecting value: line 1 column 1 (char 0)")))
     = Return (failure "Request failed: Expecting value: line 1 column 1 (char 0)").
Proof. repeat split. Qed.

Lemma ok_status_body_or_request_failed_witness :
  respond (answering stats_ok) [] (issued gephi "GET" "/graph/stats" None None)
  = Return stats_ok
  /\ is_success stats_ok = true
  /\ fst (GephiClient.request gephi "GET" "/graph/stats" None None (answering stats_ok))
     = Return (VDict [("success", VBool true); ("nodeCount", VInt 5)]).
Proof.
  split; [reflexivity | split; [reflexivity |]].
  apply (proj1 (ok_status_body_or_request_failed gephi "GET" "/graph/stats" None None
                  (answering stats_ok) stats_ok eq_refl eq_refl)).
  reflexivity.
Defined.

Lemma listing_pagination_defaults_witness :
  dict_lookup [] "limit" = None
  /\ dict_lookup [] "offset" = None
  /\ sent (snd (gephi_query_nodes [] (answering stats_ok)))
     = [mkCall REQUEST_TIMEOUT "GET" "http://127.0.0.1:8080/graph/nodes"
               (Some [("limit", VInt 100); ("offset", VInt 0)]) None]
  /\ sent (snd (gephi_query_edges [] (answering stats_ok)))
     = [mkCall REQUEST_TIMEOUT "GET" "http://127.0.0.1:8080/graph/edges"
               (Some [("limit", VInt 100); ("offset", VInt 0)]) None].
Proof.
  split; [reflexivity | split; [reflexivity |]].
  exact (listing_pagination_defaults [] (VInt 100) (VInt 0) (answering stats_ok)
           (or_introl (conj eq_refl eq_refl)) (or_introl (conj eq_refl eq_refl))).
Defined.

(** [gephi_switch_workspace] with an empty parameter object posts the empty
    object: the body holds no [index]. *)
Lemma switch_workspace_sends_no_index :
  sent (snd (gephi_switch_workspace [] (answering stats_ok)))
  = [mkCall REQUEST_TIMEOUT "POST" "http://127.0.0.1:8080/workspace/switch"
            None (Some [])]
  /\ dict_lookup [] "index" = None.
Proof. split; reflexivity. Qed.

Lemma workspace_index_forwarding_witness :
  dict_lookup [] "index" = None
  /\ sent (snd (gephi_delete_workspace elided_repr [] (answering stats_ok)))
     = [mkCall REQUEST_TIMEOUT "DELETE" "http://127.0.0.1:8080/workspace/delete"
               (Some [("index", VStr "0")]) None].
Proof.
  split; [reflexivity |].
  exact (proj1 (workspace_index_forwarding elided_repr [] (answering stats_ok)) eq_refl).
Defined.

(** A [set] is not rendered: [json.dumps] raises [TypeError]. *)
Lemma fmt_raises_on_set :
  fmt (VOther "set" "{1, 2}")
  = Raise (PyException "TypeError" "Object of type set is not JSON serializable").
Proof. reflexivity. Qed.

Lemma fmt_renders_json_values_witness :
  renderable (VDict [("success", VBool true); ("nodeCount", VInt 5)]) = true
  /\ exists s, fmt (VDict [("success", VBool true); ("nodeCount", VInt 5)]) = Return s.
Proof.
  split; [reflexivity |].
  exact (proj1 (fmt_renders_json_values
                  (VDict [("success", VBool true); ("nodeCount", VInt 5)]) eq_refl)).
Defined.

Lemma remove_node_without_id_witness :
  dict_lookup [("label", VStr "Alice")] "id" = None
  /\ sent (snd (gephi_remove_node elided_repr [("label", VStr "Alice")]
                  (answering node_not_found)))
     = [mkCall REQUEST_TIMEOUT "DELETE" "http://127.0.0.1:8080/graph/node/" None None].
Proof.
  split; [reflexivity |].
  exact (proj2 (remove_node_without_id elided_repr [("label", VStr "Alice")]
                  (answering node_not_found) eq_refl)).
Defined.

(** * Further properties of the bridge *)

(** ** Every tool of the catalog *)

Lemma dict_or_empty_id (d : dict) : dict_or_empty d = d.
Proof. destruct d; reflexivity. Qed.

(** A tool body, run: the outcome of the request, formatted, in the world
    the request leaves. *)
Lemma fmt_await_run (self : GephiClient.t) (method endpoint : string)
    (params json_data : option dict) (w : World) :
  exists v,
    GephiClient.request self method endpoint params json_data w
    = (Return v,
       mkWorld (respond w) (sent w ++ [issued self method endpoint params json_data]))
    /\ (data <- GephiClient.request self method endpoint params json_data ;;
        lift (fmt data)) w
       = (fmt v,
          mkWorld (respond w) (sent w ++ [issued self method endpoint params json_data])).
Proof.
  destruct (request_run self method endpoint params json_data w) as [v Hv].
  exists v. split; [exact Hv |]. unfold bind, lift. rewrite Hv. reflexivity.
Qed.

(** What each function of the catalog is: one request on the client of the
    module, formatted; and how it places the caller's parameters. *)
Lemma catalog_tool_body (container_repr : value -> string) (name : string) (f : tool) :
  In (name, f) (catalog container_repr) ->
  forall params,
  exists method path query body,
    tool_body f params
    = (data <- GephiClient.request gephi method (String "/" path) query body ;;
       lift (fmt data))
    /\ (method = "GET" \/ method = "POST" \/ method = "DELETE")
    /\ (body = None \/ body = Some params)
    /\ (query = None \/ body = None)
    /\ (method = "GET" -> body = None)
    /\ (method = "POST" -> query = None)
    /\ (method = "DELETE" -> body = None).
Proof.
  intros H params. each_tool H.
  all: cbn [tool_body]; do 4 eexists; split; [reflexivity |].
  all: rewrite ?dict_or_empty_id; repeat split;
    try (intros E; first [reflexivity | discriminate E]); auto.
Qed.

(** ** The encoder, case by case *)





(** ** What every tool does *)

Lemma append_assoc (a b c : string) : (a ++ b) ++ c = a ++ (b ++ c).
Proof. induction a as [| x a IHa]; [reflexivity |]. cbn. rewrite IHa. reflexivity. Qed.

Lemma fmt_failure (msg : string) : fmt (failure msg) = Return (failure_text msg).
Proof.
  unfold fmt, dumps_indent2, failure, failure_text.
  cbn [iterencode pbind]. unfold encode_basestring_ascii.
  generalize (escape_chars msg); intros e.
  rewrite !append_assoc. vm_compute. reflexivity.
Qed.



(** X1: every function of the catalog, whatever its parameter object and
    whatever the network does, hands exactly one call to httpx and leaves the
    rest of the world as it was; the call carries [REQUEST_TIMEOUT], goes to a
    path under [http://127.0.0.1:8080/] and uses GET, POST or DELETE. *)
Theorem tool_issues_one_request
    (container_repr : value -> string) (name : string) (f : tool) :
  In (name, f) (catalog container_repr) ->
  forall params w,
  exists c,
    snd (tool_body f params w) = mkWorld (respond w) (sent w ++ [c])
    /\ call_timeout c = REQUEST_TIMEOUT
    /\ (exists path, call_url c = "http://127.0.0.1:8080/" ++ path)
    /\ (call_method c = "GET" \/ call_method c = "POST" \/ call_method c = "DELETE").
Proof.
  intros H params w.
  destruct (catalog_tool_body _ _ _ H params)
    as (method & path & query & body & Eb & Hm & _).
  destruct (fmt_await_run gephi method (String "/" path) query body w) as [v [_ Ht]].
  exists (issued gephi method (String "/" path) query body).
  rewrite Eb, Ht. repeat split; [exists path; reflexivity | exact Hm].
Qed.

(** X2: the one call of a tool places the caller's parameters in a single
    place: its JSON body, when it has one, is the caller's parameter object
    unchanged (nothing added, dropped or checked); it never carries both a
    query and a body; a GET or DELETE carries no body and a POST no query. *)
Theorem tool_parameter_placement
    (container_repr : value -> string) (name : string) (f : tool) :
  In (name, f) (catalog container_repr) ->
  forall params w,
  exists c,
    sent (snd (tool_body f params w)) = (sent w ++ [c])%list
    /\ (call_json c = None \/ call_json c = Some params)
    /\ (call_params c = None \/ call_json c = None)
    /\ (call_method c = "GET" -> call_json c = None)
    /\ (call_method c = "DELETE" -> call_json c = None)
    /\ (call_method c = "POST" -> call_params c = None).
Proof.
  intros H params w.
  destruct (catalog_tool_body _ _ _ H params)
    as (method & path & query & body & Eb & _ & Hb & Hqb & Hg & Hp & Hd).
  destruct (fmt_await_run gephi method (String "/" path) query body w) as [v [_ Ht]].
  exists (issued gephi method (String "/" path) query body).
  rewrite Eb, Ht. repeat split; assumption.
Qed.

(** X3: every tool is a pass-through of the answer: when the controlled
    application answers with a body that decodes as JSON, the tool returns
    that body formatted, whichever tool it is, whatever the parameters and
    whatever the HTTP status. *)
Theorem tool_returns_formatted_body
    (container_repr : value -> string) (name : string) (f : tool) :
  In (name, f) (catalog container_repr) ->
  forall params w r v,
    (forall c, respond w (sent w) c = Return r) ->
    json_body r = Decoded v ->
    fst (tool_body f params w) = fmt v.
Proof.
  intros H params w r v Hw Hj.
  destruct (catalog_tool_body _ _ _ H params)
    as (method & path & query & body & Eb & _).
  destruct (fmt_await_run gephi method (String "/" path) query body w) as [v' [Hv Ht]].
  pose proof (request_on_response gephi method (String "/" path) query body w r
                (Hw _)) as Hr.
  rewrite Hv, Hj in Hr. cbn [fst] in Hr. injection Hr as ->.
  rewrite Eb, Ht. reflexivity.
Qed.

(** X4: when httpx raises instead of answering, every tool returns text and
    raises nothing, and the text depends on the failure alone, not on the tool
    or its parameters: the formatted failure naming [http://127.0.0.1:8080]
    when Gephi cannot be reached, the formatted time-out failure when the call
    times out, the formatted [Request failed: <message>] for any other
    exception. *)
Theorem tool_reports_transport_failure
    (container_repr : value -> string) (name : string) (f : tool) :
  In (name, f) (catalog container_repr) ->
  forall params w,
    (forall msg, (forall c, respond w (sent w) c = Raise (ConnectError msg)) ->
       fst (tool_body f params w)
       = Return (failure_text
                   ("Cannot connect to Gephi at http://127.0.0.1:8080. "
                    ++ "Ensure Gephi is running with the MCP plugin installed.")))
    /\ (forall msg, (forall c, respond w (sent w) c = Raise (TimeoutException msg)) ->
          fst (tool_body f params w)
          = Return (failure_text
                      "Request timed out. The operation may still be running in Gephi."))
    /\ (forall cls msg,
          (forall c, respond w (sent w) c = Raise (PyException cls msg)) ->
          fst (tool_body f params w)
          = Return (failure_text ("Request failed: " ++ msg))).
Proof.
  intros H params w.
  destruct (catalog_tool_body _ _ _ H params)
    as (method & path & query & body & Eb & _).
  destruct (fmt_await_run gephi method (String "/" path) query body w) as [v [Hv Ht]].
  rewrite Eb, Ht. cbn [fst].
  split; [| split]; intros; 
    match goal with
    | Hw : forall c, respond w (sent w) c = Raise ?e |- _ =>
        pose proof (request_on_exception gephi method (String "/" path) query body w e
                      (Hw _)) as Hr
    end;
    rewrite Hv in Hr; cbn [fst] in Hr;
    (injection Hr as ->; [apply fmt_failure | discriminate]).
Qed.

(** ** The client's base address *)

Lemma rstrip_cons (c a : ascii) (rest : string) :
  rstrip c (String a rest)
  = match rstrip c rest with
    | EmptyString => if Ascii.eqb a c then EmptyString else String a EmptyString
    | kept => String a kept
    end.
Proof. reflexivity. Qed.

Lemma rstrip_spec (c : ascii) (s : string) :
  (exists k, s = rstrip c s ++ repeat_char c k)
  /\ ends_with c (rstrip c s) = false
  /\ rstrip c (rstrip c s) = rstrip c s.
Proof.
  induction s as [| a rest [[k Hk] [He Hi]]]; [repeat split; exists 0; reflexivity |].
  rewrite rstrip_cons. destruct (rstrip c rest) as [| b kept] eqn:Hr.
  - destruct (Ascii.eqb_spec a c) as [-> | Hac].
    + repeat split. exists (S k). cbn. rewrite Hk at 1. reflexivity.
    + repeat split.
      * exists k. cbn. rewrite Hk at 1. reflexivity.
      * cbn. apply Ascii.eqb_neq. exact Hac.
      * cbn. destruct (Ascii.eqb_spec a c); [contradiction | reflexivity].
  - repeat split.
    + exists k. cbn [append]. rewrite Hk at 1. reflexivity.
    + exact He.
    + rewrite rstrip_cons, Hi. reflexivity.
Qed.

(** X6: a client is built on the address without its trailing slashes: the
    address given is the stored [base_url] followed by slashes only, the
    stored one never ends in a slash (so an endpoint [/...] is joined by one
    slash exactly), and building a client on a stored address changes
    nothing. *)
Theorem init_strips_trailing_slashes (address : string) :
  (exists k,
     address = GephiClient.base_url (GephiClient.__init__ address)
               ++ repeat_char "/" k)
  /\ ends_with "/" (GephiClient.base_url (GephiClient.__init__ address)) = false
  /\ GephiClient.__init__ (GephiClient.base_url (GephiClient.__init__ address))
     = GephiClient.__init__ address.
Proof.
  destruct (rstrip_spec "/" address) as [Hk [He Hi]].
  unfold GephiClient.__init__. cbn [GephiClient.base_url].
  split; [exact Hk | split; [exact He |]]. rewrite Hi. reflexivity.
Qed.

(** ** Requests in sequence *)

(** X7: nothing is cached: two requests in sequence are two calls, logged in
    order, even when they are the same request, and the outcome of the second
    is what the world answers then, knowing the first. *)
Theorem requests_are_not_cached
    (self : GephiClient.t) (method1 endpoint1 method2 endpoint2 : string)
    (params1 json1 params2 json2 : option dict) (w : World) :
  let c1 := issued self method1 endpoint1 params1 json1 in
  let c2 := issued self method2 endpoint2 params2 json2 in
  snd ((_ <- GephiClient.request self method1 endpoint1 params1 json1 ;;
        GephiClient.request self method2 endpoint2 params2 json2) w)
  = mkWorld (respond w) (sent w ++ [c1; c2])
  /\ fst ((_ <- GephiClient.request self method1 endpoint1 params1 json1 ;;
           GephiClient.request self method2 endpoint2 params2 json2) w)
     = fst (GephiClient.request self method2 endpoint2 params2 json2
              (mkWorld (respond w) (sent w ++ [c1]))).
Proof.
  intros c1 c2. subst c1 c2. unfold bind.
  destruct (request_run self method1 endpoint1 params1 json1 w) as [v1 H1].
  rewrite H1.
  destruct (request_run self method2 endpoint2 params2 json2
              (mkWorld (respond w)
                 (sent w ++ [issued self method1 endpoint1 params1 json1])))
    as [v2 H2].
  rewrite H2. cbn [fst snd respond sent].
  rewrite <- app_assoc. split; reflexivity.
Qed.

(** ** Tools that build a query *)

(** X8: the listing tools forward [limit] and [offset] and nothing else: two
    parameter objects that agree on these two keys give the same run, whatever
    other keys (filters, for one) they hold. *)
Theorem listing_forwards_only_pagination (params1 params2 : dict) (w : World) :
  dict_lookup params1 "limit" = dict_lookup params2 "limit" ->
  dict_lookup params1 "offset" = dict_lookup params2 "offset" ->
  gephi_query_nodes params1 w = gephi_query_nodes params2 w
  /\ gephi_query_edges params1 w = gephi_query_edges params2 w.
Proof.
  intros Hl Ho. unfold gephi_query_nodes, gephi_query_edges, dict_get.
  rewrite Hl, Ho. split; reflexivity.
Qed.

(** X9: [gephi_get_columns] asks for the table named by [target], the node
    table when the key is missing; [gephi_get_layout_properties] asks for the
    properties of [algorithm], the empty name when the key is missing; each
    with one GET that carries this one query parameter. *)
Theorem columns_and_layout_query_defaults
    (params : dict) (target algorithm : value) (w : World) :
  (dict_lookup params "target" = None /\ target = VStr "node"
   \/ dict_lookup params "target" = Some target) ->
  (dict_lookup params "algorithm" = None /\ algorithm = VStr EmptyString
   \/ dict_lookup params "algorithm" = Some algorithm) ->
  sent (snd (gephi_get_columns params w))
  = (sent w ++ [mkCall REQUEST_TIMEOUT "GET" "http://127.0.0.1:8080/graph/columns"
                       (Some [("target", target)]) None])%list
  /\ sent (snd (gephi_get_layout_properties params w))
     = (sent w ++ [mkCall REQUEST_TIMEOUT "GET" "http://127.0.0.1:8080/layout/properties"
                          (Some [("algorithm", algorithm)]) None])%list.
Proof.
  intros Ht Ha.
  assert (Et : dict_get params "target" (VStr "node") = target).
  { unfold dict_get. destruct Ht as [[Hn ->] | Hs]; [rewrite Hn | rewrite Hs]; reflexivity. }
  assert (Ea : dict_get params "algorithm" (VStr EmptyString) = algorithm).
  { unfold dict_get. destruct Ha as [[Hn ->] | Hs]; [rewrite Hn | rewrite Hs]; reflexivity. }
  unfold gephi_get_columns, gephi_get_layout_properties.
  rewrite !fmt_await_log, Et, Ea. split; reflexivity.
Qed.

Lemma int_repr_inj (z1 z2 : Z) : int_repr z1 = int_repr z2 -> z1 = z2.
Proof.
  unfold int_repr. intros E. apply DecimalZ.to_int_inj.
  assert (Hn : forall z, Z.to_int z <> Decimal.Pos Decimal.Nil
                         /\ Z.to_int z <> Decimal.Neg Decimal.Nil).
  { intros [| p | p]; split; try discriminate; cbn; intros [= Hp];
      exact (DecimalPos.Unsigned.to_uint_nonnil p Hp). }
  pose proof (NilZero.isi (Z.to_int z1) (proj1 (Hn z1)) (proj2 (Hn z1))) as P1.
  pose proof (NilZero.isi (Z.to_int z2) (proj1 (Hn z2)) (proj2 (Hn z2))) as P2.
  rewrite E in P1. rewrite P1 in P2. injection P2 as ->. reflexivity.
Qed.

(** X10: [gephi_delete_workspace] sends the index as text, [str(index)]: two
    parameter objects whose indexes print alike give the same run (a missing
    index, the number 0 and the text [0] are one request), and two integer
    indexes give the same request only when they are equal. *)
Theorem delete_workspace_index_as_text
    (container_repr : value -> string) (params1 params2 : dict) (w : World) :
  (str container_repr (dict_get params1 "index" (VInt 0))
   = str container_repr (dict_get params2 "index" (VInt 0)) ->
   gephi_delete_workspace container_repr params1 w
   = gephi_delete_workspace container_repr params2 w)
  /\ (forall z1 z2,
        dict_lookup params1 "index" = Some (VInt z1) ->
        dict_lookup params2 "index" = Some (VInt z2) ->
        sent (snd (gephi_delete_workspace container_repr params1 w))
        = sent (snd (gephi_delete_workspace container_repr params2 w)) ->
        z1 = z2).
Proof.
  unfold gephi_delete_workspace. split.
  - intros E. rewrite E. reflexivity.
  - intros z1 z2 H1 H2. rewrite !fmt_await_log. unfold dict_get. rewrite H1, H2.
    intros E. apply app_inv_head in E. injection E as E. apply int_repr_inj. exact E.
Qed.

(** X11: [gephi_remove_node] puts [str(id)] after [/graph/node/] as it is,
    without escaping: two parameter objects whose ids print alike give the same
    run (a missing id and the empty text; the number 7 and the text [7]), and
    a text id is the last part of the URL, character for character. *)
Theorem remove_node_id_as_text
    (container_repr : value -> string) (params1 params2 : dict) (w : World) :
  (str container_repr (dict_get params1 "id" (VStr EmptyString))
   = str container_repr (dict_get params2 "id" (VStr EmptyString)) ->
   gephi_remove_node container_repr params1 w
   = gephi_remove_node container_repr params2 w)
  /\ (forall s,
        dict_lookup params1 "id" = Some (VStr s) ->
        sent (snd (gephi_remove_node container_repr params1 w))
        = (sent w ++ [mkCall REQUEST_TIMEOUT "DELETE"
                             ("http://127.0.0.1:8080/graph/node/" ++ s) None None])%list).
Proof.
  unfold gephi_remove_node. split.
  - intros E. cbv zeta. rewrite E. reflexivity.
  - intros s Hs. cbv zeta. rewrite fmt_await_log. unfold dict_get. rewrite Hs.
    reflexivity.
Qed.

(** * Concrete runs of the further properties *)

Lemma run_layout_in_catalog :
  In ("gephi_run_layout", Tool1 gephi_run_layout) (catalog elided_repr).
Proof. cbn [catalog In]. repeat (first [left; reflexivity | right]). Qed.

Lemma remove_node_in_catalog :
  In ("gephi_remove_node", Tool1 (gephi_remove_node elided_repr)) (catalog elided_repr).
Proof. cbn [catalog In]. repeat (first [left; reflexivity | right]). Qed.

Lemma tool_issues_one_request_witness :
  In ("gephi_run_layout", Tool1 gephi_run_layout) (catalog elided_repr)
  /\ exists c,
       snd (gephi_run_layout [("algorithm", VStr "forceatlas2")]
              (failing (TimeoutException "ReadTimeout")))
       = mkWorld (fun _ _ => Raise (TimeoutException "ReadTimeout")) ([] ++ [c])
       /\ call_timeout c = REQUEST_TIMEOUT
       /\ (exists path, call_url c = "http://127.0.0.1:8080/" ++ path)
       /\ (call_method c = "GET" \/ call_method c = "POST" \/ call_method c = "DELETE").
Proof.
  split; [exact run_layout_in_catalog |].
  exact (tool_issues_one_request elided_repr _ _ run_layout_in_catalog
           [("algorithm", VStr "forceatlas2")]
           (failing (TimeoutException "ReadTimeout"))).
Defined.

Lemma tool_parameter_placement_witness :
  In ("gephi_run_layout", Tool1 gephi_run_layout) (catalog elided_repr)
  /\ exists c,
       sent (snd (gephi_run_layout [("algorithm", VStr "forceatlas2")]
                    (answering stats_ok)))
       = ([] ++ [c])%list
       /\ (call_json c = None
           \/ call_json c = Some [("algorithm", VStr "forceatlas2")])
       /\ (call_params c = None \/ call_json c = None)
       /\ (call_method c = "GET" -> call_json c = None)
       /\ (call_method c = "DELETE" -> call_json c = None)
       /\ (call_method c = "POST" -> call_params c = None).
Proof.
  split; [exact run_layout_in_catalog |].
  exact (tool_parameter_placement elided_repr _ _ run_layout_in_catalog
           [("algorithm", VStr "forceatlas2")] (answering stats_ok)).
Defined.

(** A 404 and a 200 with the same JSON body read the same to the caller. *)
Lemma tool_returns_formatted_body_witness :
  In ("gephi_remove_node", Tool1 (gephi_remove_node elided_repr)) (catalog elided_repr)
  /\ (forall c, respond (answering node_not_found)
                        (sent (answering node_not_found)) c = Return node_not_found)
  /\ json_body node_not_found = Decoded (failure "node not found")
  /\ fst (gephi_remove_node elided_repr [("id", VStr "n1")] (answering node_not_found))
     = fmt (failure "node not found").
Proof.
  split; [exact remove_node_in_catalog |].
  split; [intros c; reflexivity |]. split; [reflexivity |].
  exact (tool_returns_formatted_body elided_repr _ _ remove_node_in_catalog
           [("id", VStr "n1")] (answering node_not_found) node_not_found
           (failure "node not found") (fun c => eq_refl) eq_refl).
Defined.

Lemma tool_reports_transport_failure_witness :
  In ("gephi_run_layout", Tool1 gephi_run_layout) (catalog elided_repr)
  /\ (forall c, respond (failing (ConnectError "All connection attempts failed"))
                        [] c
                = Raise (ConnectError "All connection attempts failed"))
  /\ fst (gephi_run_layout [] (failing (ConnectError "All connection attempts failed")))
     = Return (failure_text
                 ("Cannot connect to Gephi at http://127.0.0.1:8080. "
                  ++ "Ensure Gephi is running with the MCP plugin installed.")).
Proof.
  split; [exact run_layout_in_catalog |]. split; [intros c; reflexivity |].
  exact (proj1 (tool_reports_transport_failure elided_repr _ _ run_layout_in_catalog []
                  (failing (ConnectError "All connection attempts failed")))
               "All connection attempts failed" (fun c => eq_refl)).
Defined.


(** The filter of the second parameter object is not forwarded. *)
Lemma listing_forwards_only_pagination_witness :
  dict_lookup [("limit", VInt 5)] "limit"
  = dict_lookup [("label", VStr "Alice"); ("limit", VInt 5)] "limit"
  /\ dict_lookup [("limit", VInt 5)] "offset"
     = dict_lookup [("label", VStr "Alice"); ("limit", VInt 5)] "offset"
  /\ gephi_query_nodes [("limit", VInt 5)] (answering stats_ok)
     = gephi_query_nodes [("label", VStr "Alice"); ("limit", VInt 5)] (answering stats_ok).
Proof.
  split; [reflexivity | split; [reflexivity |]].
  exact (proj1 (listing_forwards_only_pagination
                  [("limit", VInt 5)] [("label", VStr "Alice"); ("limit", VInt 5)]
                  (answering stats_ok) eq_refl eq_refl)).
Defined.

Lemma columns_and_layout_query_defaults_witness :
  dict_lookup [("algorithm", VStr "yifanhu")] "target" = None
  /\ dict_lookup [("algorithm", VStr "yifanhu")] "algorithm" = Some (VStr "yifanhu")
  /\ sent (snd (gephi_get_columns [("algorithm", VStr "yifanhu")] (answering stats_ok)))
     = [mkCall REQUEST_TIMEOUT "GET" "http://127.0.0.1:8080/graph/columns"
               (Some [("target", VStr "node")]) None]
  /\ sent (snd (gephi_get_layout_properties [("algorithm", VStr "yifanhu")]
                  (answering stats_ok)))
     = [mkCall REQUEST_TIMEOUT "GET" "http://127.0.0.1:8080/layout/properties"
               (Some [("algorithm", VStr "yifanhu")]) None].
Proof.
  split; [reflexivity | split; [reflexivity |]].
  exact (columns_and_layout_query_defaults [("algorithm", VStr "yifanhu")]
           (VStr "node") (VStr "yifanhu") (answering stats_ok)
           (or_introl (conj eq_refl eq_refl)) (or_intror eq_refl)).
Defined.

(** No index, and the text [0] as index, are the same request. *)
Lemma delete_workspace_index_as_text_witness :
  str elided_repr (dict_get [] "index" (VInt 0))
  = str elided_repr (dict_get [("index", VStr "0")] "index" (VInt 0))
  /\ gephi_delete_workspace elided_repr [] (answering stats_ok)
     = gephi_delete_workspace elided_repr [("index", VStr "0")] (answering stats_ok).
Proof.
  split; [reflexivity |].
  exact (proj1 (delete_workspace_index_as_text elided_repr [] [("index", VStr "0")]
                  (answering stats_ok)) eq_refl).
Defined.

(** The number 7 and the text [7] address the same node path. *)
Lemma remove_node_id_as_text_witness :
  str elided_repr (dict_get [("id", VInt 7)] "id" (VStr EmptyString))
  = str elided_repr (dict_get [("id", VStr "7")] "id" (VStr EmptyString))
  /\ gephi_remove_node elided_repr [("id", VInt 7)] (answering stats_ok)
     = gephi_remove_node elided_repr [("id", VStr "7")] (answering stats_ok).
Proof.
  split; [reflexivity |].
  exact (proj1 (remove_node_id_as_text elided_repr [("id", VInt 7)] [("id", VStr "7")]
                  (answering stats_ok)) eq_refl).
Defined.

